(** * why_ANOVA_matters.ipynb: pairwise t-tests against one-way ANOVA

    A shallow embedding of the code cells of the notebook
    [src/why_ANOVA_matters.ipynb]:

    - [sample]                      (cell 3, lines 37-42)
    - [do_all_way_pairwise_tests]   (cell 4, lines 51-69)
    - [do_ANOVA]                    (cell 9, lines 258-271)
    - the driver cells              (lines 105-112, 137-144, 178-185,
                                     228-235, 309-317)

    The numerical libraries the notebook imports ([np.random],
    [scipy.stats.ttest_ind], [scipy.stats.f_oneway]) are not part of the
    repository: they are variables of the section [Notebook].  Python
    values are modelled as the interpreter has them: [float] is IEEE
    binary64 (Rocq's primitive floats), [int] is [Z], a list or tuple is a
    [list], an exception is a constructor of [exn]. *)

From Stdlib Require Import ZArith List Bool Lia Permutation.
From Stdlib Require Import PrimFloat Floats.SpecFloat Floats.FloatOps.
From Stdlib Require Import Floats.FloatAxioms.
Import ListNotations.

(** ** The pieces of the Python runtime the notebook uses *)

Module Py.

(** The built-in exceptions that can arise from the operations below. *)
Inductive exn : Set :=
| IndexError
| ZeroDivisionError
| OverflowError
| TypeError
| ValueError.

(** The outcome of evaluating an expression: a value, or a raised
    exception that unwinds to the top of the cell. *)
Inductive result (A : Type) : Type :=
| Ok (a : A)
| Raise (e : exn).

Arguments Ok {A} a.
Arguments Raise {A} e.

Definition bind {A B} (r : result A) (k : A -> result B) : result B :=
  match r with
  | Ok a => k a
  | Raise e => Raise e
  end.

(** [range(n)]: the integers [0 .. n-1], empty when [n <= 0]. *)
Definition range (n : Z) : list Z :=
  map Z.of_nat (seq 0 (Z.to_nat n)).

(** [t[i]] on a tuple, for a non-negative literal index. *)
Definition getitem {A} (t : list A) (i : nat) : result A :=
  match nth_error t i with
  | Some x => Ok x
  | None => Raise IndexError
  end.

(** [[f(x) for x in xs]] for a body without side effects: the elements
    are evaluated left to right and the first exception is the result. *)
Fixpoint list_comp {A B} (f : B -> result A) (xs : list B)
  : result (list A) :=
  match xs with
  | [] => Ok []
  | x :: xs' =>
      bind (f x) (fun v =>
      bind (list_comp f xs') (fun vs =>
      Ok (v :: vs)))
  end.

(** [any(flags)] *)
Fixpoint any (flags : list bool) : bool :=
  match flags with
  | [] => false
  | b :: flags' => if b then true else any flags'
  end.

(** [flags.count(x)] *)
Fixpoint count (x : bool) (flags : list bool) : Z :=
  match flags with
  | [] => 0
  | b :: flags' => ((if Bool.eqb b x then 1 else 0) + count x flags')%Z
  end.

(** [itertools.combinations(l, r)]: the [r]-element subsequences of
    [l], in lexicographic order of the positions they are taken from. *)
Fixpoint combinations {A} (l : list A) (r : nat) {struct l}
  : list (list A) :=
  match r, l with
  | O, _ => [[]]
  | S _, [] => []
  | S r', x :: t => map (cons x) (combinations t r') ++ combinations t r
  end.

(** [a / b] on two [int]s: the exact quotient rounded to the nearest
    binary64 value, ties to even.  A zero divisor raises
    [ZeroDivisionError]; a zero dividend gives a zero carrying the sign
    of the divisor; a quotient too large for a float raises
    [OverflowError]. *)
Definition int_truediv (a b : Z) : result float :=
  match b, a with
  | Z0, _ => Raise ZeroDivisionError
  | _, Z0 => Ok (SF2Prim (S754_zero (b <? 0)%Z))
  | _, _ =>
      let sign := xorb (a <? 0)%Z (b <? 0)%Z in
      let '(q, e, l) :=
        SFdiv_core_binary prec emax (Z.abs a) 0 (Z.abs b) 0 in
      match binary_round_aux prec emax sign q e l with
      | S754_infinity _ => Raise OverflowError
      | f => Ok (SF2Prim f)
      end
  end.

End Py.

Import Py.

(** ** The notebook *)

(** [scipy.stats.ttest_ind] returns a [Ttest_indResult] named tuple. *)
Record Ttest_indResult : Set := {
  ttest_statistic : float;
  ttest_pvalue : float
}.

(** [scipy.stats.f_oneway] returns an [F_onewayResult] named tuple. *)
Record F_onewayResult : Set := {
  f_statistic : float;
  f_pvalue : float
}.

(** A sample is a one-dimensional array of floats. *)
Definition Sample : Set := list float.

(** The binary64 value the literal [.05] of the driver cells denotes. *)
Definition sig_05 : float := 0x1.999999999999ap-5%float.

(** [x / n] for a [float] and an [int] (line 229, [.05/3]): the integer is
    converted to the nearest float, which raises [OverflowError] when it
    is too large; a zero divisor raises [ZeroDivisionError]; otherwise
    the IEEE quotient. *)
Definition float_truediv_int (x : float) (n : Z) : result float :=
  match binary_normalize prec emax n 0 false with
  | S754_infinity _ => Raise OverflowError
  | S754_zero _ => Raise ZeroDivisionError
  | f => Ok (x / SF2Prim f)%float
  end.

(** What the notebook displays: the two printed lines of each driver
    cell and the value of cell 10. *)
Record NotebookOutput : Set := {
  out_cell5 : Z * float;
  out_cell6 : Z * float;
  out_cell7 : Z * float;
  out_cell8 : Z * float;
  out_cell10 : bool;
  out_cell11 : Z * float
}.

(** ** A stand-in for the numerical libraries

    A small deterministic generator and two crude test statistics with
    the interface of the imported functions.  They make the notebook's
    functions computable inside Rocq, so that each statement below can be
    evaluated on a concrete run. *)

Module Stub.

Definition RandomState : Set := Z.

Definition seed_state (value : Z) : RandomState :=
  (value mod 2147483648)%Z.

Definition Z2float (z : Z) : float :=
  SF2Prim (binary_normalize prec emax z 0 false).

(** One step of a linear congruential generator and the value drawn,
    a multiple of 1/1000 in [-1, 1]. *)
Definition draw (s : RandomState) : float * RandomState :=
  let s' := ((1103515245 * s + 12345) mod 2147483648)%Z in
  ((Z2float ((s' / 65536) mod 2001 - 1000)%Z / Z2float 1000%Z)%float, s').

Fixpoint normal (size : nat) (s : RandomState) : Sample * RandomState :=
  match size with
  | O => ([], s)
  | S size' =>
      let (x, s1) := draw s in
      let (xs, s2) := normal size' s1 in
      (x :: xs, s2)
  end.

Definition mean (a : Sample) : float :=
  (fold_right PrimFloat.add 0 a / Z2float (Z.of_nat (length a)))%float.

Definition ttest_ind (a b : Sample) : Ttest_indResult :=
  let d := (mean a - mean b)%float in
  {| ttest_statistic := d;
     ttest_pvalue := (1 / (1 + 200 * abs d))%float |}.

Definition f_oneway (groups : list Sample) : result F_onewayResult :=
  match groups with
  | [] => Raise ValueError
  | [_] => Raise TypeError
  | g :: rest =>
      let d := fold_right (fun h acc => (acc + abs (mean g - mean h))%float)
                          0%float rest in
      Ok {| f_statistic := d;
            f_pvalue := (1 / (1 + 200 * d))%float |}
  end.

End Stub.

Section Notebook.

(** *** The imported libraries (cell 1) *)

(** The state of numpy's process-wide generator. *)
Variable RandomState : Type.

(** The state [np.random.seed(value)] installs. *)
Variable seed_state : Z -> RandomState.

(** [np.random.normal(size=n)]: the array drawn and the advanced
    generator state. *)
Variable normal : nat -> RandomState -> Sample * RandomState.

(** [scipy.stats.ttest_ind(a, b)] *)
Variable ttest_ind : Sample -> Sample -> Ttest_indResult.

(** [scipy.stats.f_oneway( *groups )]; the library may reject its
    arguments by raising. *)
Variable f_oneway : list Sample -> result F_onewayResult.

(** *** Computations that use the process-wide generator *)

Definition M (A : Type) : Type := RandomState -> result (A * RandomState).

Definition ret {A} (a : A) : M A := fun s => Ok (a, s).

Definition mbind {A B} (c : M A) (k : A -> M B) : M B :=
  fun s =>
    match c s with
    | Ok (a, s') => k a s'
    | Raise e => Raise e
    end.

Definition lift {A} (r : result A) : M A :=
  fun s =>
    match r with
    | Ok a => Ok (a, s)
    | Raise e => Raise e
    end.

Notation "x <- c ;; k" := (mbind c (fun x => k))
  (at level 61, c at next level, right associativity).

(** [[body for _ in xs]] for a body that uses the generator. *)
Fixpoint comprehension {A B} (xs : list B) (body : B -> M A)
  : M (list A) :=
  match xs with
  | [] => ret []
  | x :: xs' =>
      v <- body x ;;
      vs <- comprehension xs' body ;;
      ret (v :: vs)
  end.

(** *** Cell 2: [np.random.seed(5000)]

    An integer seed outside [0 .. 2**32 - 1] is refused with
    [ValueError] and the generator is not touched; an accepted seed
    replaces the generator state, whatever it was. *)

Definition np_random_seed (value : Z) : M unit :=
  fun _ =>
    if (0 <=? value)%Z && (value <=? 4294967295)%Z
    then Ok (tt, seed_state value)
    else Raise ValueError.

(** *** Cell 3: [sample()] *)

Definition sample : M Sample :=
  fun s => Ok (normal 100 s).

(** *** Cell 4: [do_all_way_pairwise_tests] *)

(** Line 63 (and line 267):
    [groups = [sample() for _ in range(num_groups)]] *)
Definition draw_groups (num_groups : Z) : M (list Sample) :=
  comprehension (range num_groups) (fun _ => sample).

(** The element of the comprehension on line 68:
    [ttest_ind(pair[0], pair[1]).pvalue < pairwise_sig] *)
Definition pair_significant (pairwise_sig : float) (pair : list Sample)
  : result bool :=
  bind (getitem pair 0) (fun a =>
  bind (getitem pair 1) (fun b =>
  Ok (ttest_pvalue (ttest_ind a b) <? pairwise_sig)%float)).

(** Lines 67-69: [any([... for pair in pairs])] *)
Definition any_pair_significant (pairwise_sig : float)
    (pairs : list (list Sample)) : result bool :=
  bind (list_comp (pair_significant pairwise_sig) pairs) (fun flags =>
  Ok (any flags)).

Definition do_all_way_pairwise_tests (num_groups : Z) (pairwise_sig : float)
  : M bool :=
  groups <- draw_groups num_groups ;;
  let pairs := combinations groups 2 in
  lift (any_pair_significant pairwise_sig pairs).

(** *** Cell 9: [do_ANOVA] *)

Definition do_ANOVA (num_groups : Z) (sig : float) : M bool :=
  groups <- draw_groups num_groups ;;
  (* line 269: the iterator is created and never consumed *)
  let pairs := combinations groups 2 in
  r <- lift (f_oneway groups) ;;
  ret (f_pvalue r <? sig)%float.

(** *** The driver cells

    Every driver cell has the same shape; [procedure] is the call in
    the comprehension and [num_trials] the constant bound first.  The
    two printed values are the result. *)

Definition driver_cell (procedure : M bool) (num_trials : Z)
  : M (Z * float) :=
  results <- comprehension (range num_trials) (fun _ => procedure) ;;
  let num_false_positives := count true results in
  empirical_FPR <- lift (int_truediv num_false_positives num_trials) ;;
  ret (num_false_positives, empirical_FPR).

(** [n] successive invocations of [procedure], each starting from the
    generator state the previous one left, with the outcomes in order. *)
Inductive trials (procedure : M bool)
  : nat -> RandomState -> list bool -> RandomState -> Prop :=
| trials_done : forall s, trials procedure 0 s [] s
| trials_next : forall n s b s1 bs s2,
    procedure s = Ok (b, s1) ->
    trials procedure n s1 bs s2 ->
    trials procedure (S n) s (b :: bs) s2.



(** The specification's enumeration of the pairs to test: the index
    pairs [(i, j)] with [i < j] over [range(n)]. *)
Definition index_pairs (n : nat) : list (nat * nat) :=
  flat_map (fun i => map (pair i) (seq (S i) (n - S i))) (seq 0 n).

(** The per-pair indicator: the t-test on two groups is significant. *)
Definition indicator (pairwise_sig : float) (a b : Sample) : bool :=
  (ttest_pvalue (ttest_ind a b) <? pairwise_sig)%float.

(** The indicator of a tuple produced by [combinations(groups, r=2)]. *)
Definition pair_flag (pairwise_sig : float) (pair : list Sample) : bool :=
  match pair with
  | a :: b :: _ => indicator pairwise_sig a b
  | _ => false
  end.

(** The generator state after [k] successive [sample()] calls. *)
Fixpoint after_samples (k : nat) (s : RandomState) : RandomState :=
  match k with
  | O => s
  | S k' => after_samples k' (snd (normal 100 s))
  end.

(** The arrays that [k] successive [sample()] calls return. *)
Fixpoint successive_samples (k : nat) (s : RandomState) : list Sample :=
  match k with
  | O => []
  | S k' => fst (normal 100 s) :: successive_samples k' (snd (normal 100 s))
  end.

(** *** The notebook, run from top to bottom

    Cell 2 seeds the generator; cells 5, 6, 7, 8 and 11 are the driver
    cells (lines 105-112, 137-144, 178-185, 228-235, 309-317); cell 10
    is the single call on line 291. *)
Definition notebook : M NotebookOutput :=
  _ <- np_random_seed 5000 ;;
  c5 <- driver_cell (do_all_way_pairwise_tests 2 sig_05) 1000 ;;
  c6 <- driver_cell (do_all_way_pairwise_tests 3 sig_05) 1000 ;;
  c7 <- driver_cell (do_all_way_pairwise_tests 20 sig_05) 1000 ;;
  c8 <- (* the argument [.05/3] is evaluated afresh in every trial *)
        driver_cell (pairwise_sig <- lift (float_truediv_int sig_05 3) ;;
                     do_all_way_pairwise_tests 3 pairwise_sig) 1000 ;;
  c10 <- do_ANOVA 3 sig_05 ;;
  c11 <- driver_cell (do_ANOVA 3 sig_05) 1000 ;;
  ret {| out_cell5 := c5; out_cell6 := c6; out_cell7 := c7;
         out_cell8 := c8; out_cell10 := c10; out_cell11 := c11 |}.

(** ** Facts about the runtime operations *)

Lemma range_length : forall n, length (range n) = Z.to_nat n.
Proof.
  intros n. unfold range. now rewrite length_map, length_seq.
Qed.

Lemma any_true_iff : forall flags, any flags = true <-> In true flags.
Proof.
  induction flags as [|b flags IH]; simpl.
  - split; [discriminate | tauto].
  - destruct b.
    + split; auto.
    + rewrite IH. split; [auto | intros [H|H]; [discriminate | exact H]].
Qed.

Lemma any_existsb : forall flags, any flags = existsb (fun b => b) flags.
Proof.
  induction flags as [|b flags IH]; simpl; [reflexivity|].
  destruct b; simpl; [reflexivity | exact IH].
Qed.

Lemma list_comp_total :
  forall (A B : Type) (f : B -> result A) (g : B -> A) (xs : list B),
    (forall x, In x xs -> f x = Ok (g x)) ->
    list_comp f xs = Ok (map g xs).
Proof.
  intros A B f g xs. induction xs as [|x xs IH]; intros H; simpl.
  - reflexivity.
  - rewrite (H x (or_introl eq_refl)). simpl.
    rewrite IH by (intros y Hy; apply H; now right). reflexivity.
Qed.

Lemma count_true_filter :
  forall flags, count true flags = Z.of_nat (length (filter (fun b => b) flags)).
Proof.
  induction flags as [|b flags IH]; [reflexivity|].
  cbn [count filter]. rewrite IH.
  destruct b; cbn [Bool.eqb length]; lia.
Qed.

Lemma count_true_bounds :
  forall flags, (0 <= count true flags <= Z.of_nat (length flags))%Z.
Proof.
  induction flags as [|b flags IH]; [simpl; lia|].
  cbn [count length]. destruct b; cbn [Bool.eqb]; lia.
Qed.

(** *** Integer true division *)

Lemma digits2_pos_size : forall p, digits2_pos p = Pos.size p.
Proof. induction p; simpl; congruence. Qed.

Lemma Zdigits2_bound :
  forall m k, (0 <= m < 2 ^ k)%Z -> (0 <= k)%Z -> (Zdigits2 m <= k)%Z.
Proof.
  intros [|p|p] k Hm Hk; simpl; [exact Hk | | lia].
  rewrite digits2_pos_size.
  pose proof (Pos.size_le p) as Hs.
  assert (H2 : (2 ^ Z.pos (Pos.size p) <= 2 * Z.pos p)%Z).
  { change 2%Z with (Z.pos 2) at 1. rewrite <- Pos2Z.inj_pow.
    change (2 * Z.pos p)%Z with (Z.pos p~0). now apply Pos2Z.pos_le_pos. }
  apply Z.lt_succ_r. apply (Z.pow_lt_mono_r_iff 2); [lia | lia |].
  rewrite Z.pow_succ_r by exact Hk. lia.
Qed.

Lemma shr_1_m :
  forall mrs, (0 <= shr_m mrs)%Z ->
    (0 <= shr_m (shr_1 mrs) <= shr_m mrs)%Z.
Proof.
  intros [[|[p|p|]|p] r s] H; simpl in *; lia.
Qed.

Lemma iter_shr_1_m :
  forall p mrs, (0 <= shr_m mrs)%Z ->
    (0 <= shr_m (iter_pos shr_1 p mrs) <= shr_m mrs)%Z.
Proof.
  induction p as [p IH|p IH|]; intros mrs H; simpl.
  - pose proof (shr_1_m mrs H) as H1.
    pose proof (IH _ (proj1 H1)) as H2.
    pose proof (IH _ (proj1 H2)) as H3. lia.
  - pose proof (IH _ H) as H2.
    pose proof (IH _ (proj1 H2)) as H3. lia.
  - now apply shr_1_m.
Qed.

Lemma shr_fexp_bounds :
  forall m e l mrs e',
    shr_fexp prec emax m e l = (mrs, e') ->
    (0 <= m)%Z ->
    (0 <= shr_m mrs <= m)%Z /\
    e' = Z.max e (fexp prec emax (Zdigits2 m + e)).
Proof.
  intros m e l mrs e' H Hm. unfold shr_fexp, shr in H.
  assert (H0 : shr_m (shr_record_of_loc m l) = m)
    by (destruct l as [|[| |]]; reflexivity).
  destruct (fexp prec emax (Zdigits2 m + e) - e)%Z as [|n|n] eqn:En;
    injection H as <- <-.
  - rewrite H0. lia.
  - pose proof (iter_shr_1_m n (shr_record_of_loc m l)) as Hi.
    rewrite H0 in Hi. lia.
  - rewrite H0. lia.
Qed.

Lemma round_nearest_even_bounds :
  forall m l, (m <= round_nearest_even m l <= m + 1)%Z.
Proof.
  intros m [|[| |]]; simpl; try lia. destruct (Z.even m); lia.
Qed.

Lemma binary_round_aux_finite :
  forall sx mx ex lx,
    (0 <= mx)%Z -> (ex <= -53)%Z -> (mx + 1 < 2 ^ (- ex + 1))%Z ->
    (- ex <= 1074)%Z ->
    forall s, binary_round_aux prec emax sx mx ex lx <> S754_infinity s.
Proof.
  intros sx mx ex lx Hmx Hex Hbound Hlow s. unfold binary_round_aux.
  destruct (shr_fexp prec emax mx ex lx) as [mrs1 e1] eqn:E1.
  destruct (shr_fexp prec emax
              (round_nearest_even (shr_m mrs1) (loc_of_shr_record mrs1))
              e1 loc_Exact) as [mrs2 e2] eqn:E2.
  destruct (@shr_fexp_bounds _ _ _ _ _ E1 Hmx) as [Hm1 He1].
  pose proof (round_nearest_even_bounds (shr_m mrs1) (loc_of_shr_record mrs1)) as Hr.
  destruct (@shr_fexp_bounds _ _ _ _ _ E2) as [Hm2 He2]; [lia|].
  destruct (shr_m mrs2) as [|m|m]; try discriminate.
  assert (Hd1 : (Zdigits2 mx <= - ex + 1)%Z)
    by (apply Zdigits2_bound; lia).
  assert (Hd2 : (Zdigits2 (round_nearest_even (shr_m mrs1)
                             (loc_of_shr_record mrs1)) <= - ex + 1)%Z)
    by (apply Zdigits2_bound; lia).
  unfold fexp, SpecFloat.emin, prec, emax in *.
  destruct (Z.leb_spec e2 (1024 - 53)); [discriminate | lia].
Qed.

Lemma Zdigits2_gt : forall m, (0 <= m)%Z -> (m < 2 ^ Zdigits2 m)%Z.
Proof.
  intros [|p|p] H; cbn [Zdigits2]; [simpl; lia | | lia].
  rewrite digits2_pos_size, <- Pos2Z.inj_pow.
  apply Pos2Z.pos_lt_pos, Pos.size_gt.
Qed.

Lemma SFdiv_core_fraction :
  forall a b q e l,
    (0 < a <= b)%Z ->
    SFdiv_core_binary prec emax a 0 b 0 = (q, e, l) ->
    (0 <= q <= 2 ^ (- e))%Z /\ (-1074 <= e <= -53)%Z.
Proof.
  intros a b q e l Hab H. unfold SFdiv_core_binary in H.
  assert (Hd : (0 <= Zdigits2 a <= Zdigits2 b)%Z).
  { split; [destruct a; simpl; lia|].
    apply Zdigits2_bound; [|destruct b; simpl; lia].
    pose proof (@Zdigits2_gt b). lia. }
  set (e0 := Z.min (fexp prec emax (Zdigits2 a + 0 - (Zdigits2 b + 0)))
                   (0 - 0)) in H.
  assert (He0 : (-1074 <= e0 <= -53)%Z)
    by (unfold e0, fexp, SpecFloat.emin, prec, emax; lia).
  destruct (0 - 0 - e0)%Z as [|n|n] eqn:Es; try lia.
  destruct (Z.div_eucl (Z.shiftl a (Z.pos n)) b) as [q0 r0] eqn:Ed.
  injection H as <- <- _.
  assert (Hq : q0 = (Z.shiftl a (Z.pos n) / b)%Z)
    by (unfold Z.div; now rewrite Ed).
  rewrite Z.shiftl_mul_pow2 in Hq by lia.
  replace (- e0)%Z with (Z.pos n) by lia.
  assert (Hp : (0 < 2 ^ Z.pos n)%Z) by (apply Z.pow_pos_nonneg; lia).
  split; [|exact He0]. subst q0. split.
  - apply Z.div_pos; nia.
  - apply Z.div_le_upper_bound; nia.
Qed.

Lemma int_truediv_fraction :
  forall a b, (0 <= a <= b)%Z -> (0 < b)%Z ->
    exists rate, int_truediv a b = Ok rate.
Proof.
  intros a b Ha Hb. unfold int_truediv.
  destruct b as [|pb|pb]; try lia.
  destruct a as [|pa|pa]; try lia; [eexists; reflexivity|].
  cbn [Z.abs].
  destruct (SFdiv_core_binary prec emax (Z.pos pa) 0 (Z.pos pb) 0)
    as [[q e] l] eqn:Ec.
  assert (Hab : (0 < Z.pos pa <= Z.pos pb)%Z) by lia.
  destruct (@SFdiv_core_fraction _ _ _ _ _ Hab Ec) as [Hq He].
  assert (Hfin : forall s,
             binary_round_aux prec emax
               (xorb (Z.pos pa <? 0)%Z (Z.pos pb <? 0)%Z) q e l
             <> S754_infinity s).
  { apply binary_round_aux_finite; try lia.
    assert (2 ^ (- e + 1) = 2 * 2 ^ (- e))%Z
      by (rewrite Z.pow_add_r; lia).
    assert (2 ^ 1 <= 2 ^ (- e))%Z by (apply Z.pow_le_mono_r; lia).
    lia. }
  destruct (binary_round_aux prec emax _ q e l) as [s|s| |s m e'];
    try (eexists; reflexivity).
  now elim (Hfin s).
Qed.

Lemma int_truediv_zero : forall a, int_truediv a 0 = Raise ZeroDivisionError.
Proof. reflexivity. Qed.

(** *** [combinations] *)

Lemma combinations_0 : forall (A : Type) (l : list A), combinations l 0 = [[]].
Proof. intros A [|x l]; reflexivity. Qed.

Lemma combinations_1 :
  forall (A : Type) (l : list A), combinations l 1 = map (fun x => [x]) l.
Proof.
  induction l as [|x l IH]; simpl; [reflexivity|].
  rewrite combinations_0, IH. reflexivity.
Qed.

Lemma combinations_2_cons :
  forall (A : Type) (x : A) (l : list A),
    combinations (x :: l) 2 = map (fun y => [x; y]) l ++ combinations l 2.
Proof.
  intros A x l. simpl. rewrite combinations_1, map_map. reflexivity.
Qed.

Lemma In_combinations_2 :
  forall (A : Type) (l : list A) (p : list A),
    In p (combinations l 2) <->
    exists i j a b,
      i < j /\ nth_error l i = Some a /\ nth_error l j = Some b /\
      p = [a; b].
Proof.
  intros A l. induction l as [|x l IH]; intros p.
  - simpl. split; [tauto|].
    intros (i & j & a & b & _ & Hi & _). destruct i; discriminate.
  - rewrite combinations_2_cons, in_app_iff, in_map_iff, IH. split.
    + intros [(y & <- & Hy) | (i & j & a & b & Hlt & Hi & Hj & ->)].
      * apply In_nth_error in Hy. destruct Hy as [j Hj].
        exists 0, (S j), x, y. repeat split; [lia | exact Hj].
      * exists (S i), (S j), a, b. repeat split; [lia | exact Hi | exact Hj].
    + intros (i & j & a & b & Hlt & Hi & Hj & ->).
      destruct j as [|j]; [lia|]. simpl in Hj.
      destruct i as [|i]; simpl in Hi.
      * left. injection Hi as ->. exists b. split; [reflexivity|].
        eapply nth_error_In; eassumption.
      * right. exists i, j, a, b. repeat split; [lia | exact Hi | exact Hj].
Qed.

Lemma combinations_2_length :
  forall (A : Type) (l : list A),
    2 * length (combinations l 2) = length l * (length l - 1).
Proof.
  induction l as [|x l IH].
  - reflexivity.
  - rewrite combinations_2_cons, length_app, length_map.
    simpl length. nia.
Qed.

Lemma combinations_2_small :
  forall (A : Type) (l : list A), length l <= 1 -> combinations l 2 = [].
Proof.
  intros A [|x [|y l]] H; simpl in *; [reflexivity | reflexivity | lia].
Qed.

Lemma In_index_pairs :
  forall n i j, In (i, j) (index_pairs n) <-> i < j /\ j < n.
Proof.
  intros n i j. unfold index_pairs. rewrite in_flat_map. split.
  - intros (k & Hk & Hin). apply in_map_iff in Hin.
    destruct Hin as (m & Heq & Hm). injection Heq as -> ->.
    apply in_seq in Hk. apply in_seq in Hm. lia.
  - intros [Hij Hjn]. exists i. split.
    + apply in_seq. lia.
    + apply in_map_iff. exists j. split; [reflexivity|].
      apply in_seq. lia.
Qed.

(** ** Facts about the notebook's functions *)

Lemma comprehension_sample :
  forall (B : Type) (xs : list B) (s : RandomState),
    exists groups s',
      comprehension xs (fun _ => sample) s = Ok (groups, s') /\
      length groups = length xs /\
      Forall (fun g => exists s0, g = fst (normal 100 s0)) groups.
Proof.
  intros B xs. induction xs as [|x xs IH]; intros s.
  - exists [], s. repeat split. constructor.
  - destruct (IH (snd (normal 100 s))) as (groups & s' & Hrun & Hlen & Hall).
    exists (fst (normal 100 s) :: groups), s'.
    cbn [comprehension]. unfold mbind at 1. unfold sample at 1.
    destruct (normal 100 s) as [g s1] eqn:E. cbn [fst snd] in *.
    unfold mbind. rewrite Hrun. repeat split.
    + simpl. now rewrite Hlen.
    + constructor; [|exact Hall]. exists s. now rewrite E.
Qed.

Lemma draw_groups_ok :
  forall (num_groups : Z) (s : RandomState),
    exists groups s',
      draw_groups num_groups s = Ok (groups, s') /\
      length groups = Z.to_nat num_groups /\
      Forall (fun g => exists s0, g = fst (normal 100 s0)) groups.
Proof.
  intros n s. unfold draw_groups.
  destruct (comprehension_sample Z (range n) s) as (groups & s' & H & Hlen & Hall).
  exists groups, s'. rewrite range_length in Hlen. auto.
Qed.

Lemma pair_significant_flag :
  forall sig a b rest,
    pair_significant sig (a :: b :: rest) = Ok (pair_flag sig (a :: b :: rest)).
Proof. reflexivity. Qed.

Lemma pair_significant_raises :
  forall sig pair e, pair_significant sig pair = Raise e -> e = IndexError.
Proof.
  intros sig [|a [|b rest]] e; cbn; intros H; congruence.
Qed.

Lemma any_pair_significant_cons :
  forall sig pair pairs,
    any_pair_significant sig (pair :: pairs) =
    bind (pair_significant sig pair) (fun flag =>
    bind (any_pair_significant sig pairs) (fun others =>
    Ok (if flag then true else others))).
Proof.
  intros sig pair pairs. unfold any_pair_significant. cbn [list_comp].
  destruct (pair_significant sig pair) as [flag|e]; cbn [bind]; [|reflexivity].
  destruct (list_comp (pair_significant sig) pairs); reflexivity.
Qed.

Lemma any_pair_significant_perm :
  forall sig pairs pairs',
    Permutation pairs pairs' ->
    any_pair_significant sig pairs = any_pair_significant sig pairs'.
Proof.
  intros sig pairs pairs' HP. induction HP as [|p l l' _ IH|p q l|l1 l2 l3 _ IH1 _ IH2].
  - reflexivity.
  - now rewrite !any_pair_significant_cons, IH.
  - rewrite !any_pair_significant_cons.
    destruct (pair_significant sig p) as [fp|ep] eqn:Hp;
      destruct (pair_significant sig q) as [fq|eq] eqn:Hq; cbn [bind].
    + destruct (any_pair_significant sig l); cbn [bind]; [|reflexivity].
      now destruct fp, fq.
    + reflexivity.
    + reflexivity.
    + apply pair_significant_raises in Hp, Hq. congruence.
  - congruence.
Qed.

Lemma any_pair_significant_combinations :
  forall sig (groups : list Sample),
    any_pair_significant sig (combinations groups 2)
    = Ok (any (map (pair_flag sig) (combinations groups 2))).
Proof.
  intros sig groups. unfold any_pair_significant.
  rewrite (@list_comp_total _ _ _ (pair_flag sig)); [reflexivity|].
  intros p Hp. apply In_combinations_2 in Hp.
  destruct Hp as (i & j & a & b & _ & _ & _ & ->).
  apply pair_significant_flag.
Qed.

Lemma any_flag_combinations :
  forall sig (groups : list Sample),
    any (map (pair_flag sig) (combinations groups 2)) = true <->
    exists i j gi gj,
      i < j /\ nth_error groups i = Some gi /\ nth_error groups j = Some gj /\
      indicator sig gi gj = true.
Proof.
  intros sig groups. rewrite any_true_iff, in_map_iff. split.
  - intros (p & Hflag & Hp). apply In_combinations_2 in Hp.
    destruct Hp as (i & j & a & b & Hlt & Hi & Hj & ->).
    exists i, j, a, b. auto.
  - intros (i & j & a & b & Hlt & Hi & Hj & Hflag).
    exists [a; b]. split; [exact Hflag|].
    apply In_combinations_2. exists i, j, a, b. auto.
Qed.

Lemma any_flag_index_pairs :
  forall sig (groups : list Sample),
    any (map (pair_flag sig) (combinations groups 2))
    = existsb (fun ij => indicator sig (nth (fst ij) groups [])
                                       (nth (snd ij) groups []))
              (index_pairs (length groups)).
Proof.
  intros sig groups. apply eq_true_iff_eq.
  rewrite any_flag_combinations, existsb_exists. split.
  - intros (i & j & gi & gj & Hlt & Hi & Hj & Hflag).
    exists (i, j). split.
    + apply In_index_pairs. split; [exact Hlt|].
      apply nth_error_Some. congruence.
    + cbn [fst snd].
      now rewrite (nth_error_nth _ _ _ Hi), (nth_error_nth _ _ _ Hj).
  - intros ([i j] & Hin & Hflag). apply In_index_pairs in Hin.
    cbn [fst snd] in Hflag. destruct Hin as [Hij Hj].
    exists i, j, (nth i groups []), (nth j groups []).
    repeat split; [exact Hij | | | exact Hflag];
      apply nth_error_nth'; lia.
Qed.

Lemma do_all_way_pairwise_tests_run :
  forall num_groups sig s groups s',
    draw_groups num_groups s = Ok (groups, s') ->
    do_all_way_pairwise_tests num_groups sig s
    = Ok (any (map (pair_flag sig) (combinations groups 2)), s').
Proof.
  intros n sig s groups s' H. unfold do_all_way_pairwise_tests, mbind.
  rewrite H. unfold lift. now rewrite any_pair_significant_combinations.
Qed.

Lemma do_ANOVA_run :
  forall num_groups sig s groups s',
    draw_groups num_groups s = Ok (groups, s') ->
    do_ANOVA num_groups sig s
    = match f_oneway groups with
      | Ok r => Ok ((f_pvalue r <? sig)%float, s')
      | Raise e => Raise e
      end.
Proof.
  intros n sig s groups s' H. unfold do_ANOVA, mbind.
  rewrite H. unfold lift. now destruct (f_oneway groups).
Qed.

(** ** The pairwise procedure *)

(** C1. For [num_groups >= 2], [do_all_way_pairwise_tests] draws
    [num_groups] groups, tests the [num_groups * (num_groups - 1) / 2]
    pairs of distinct groups, and returns [true] exactly when some pair
    of groups at positions [i < j] has a t-test p-value strictly below
    [pairwise_sig]; its result is the OR of the per-pair indicators over
    all index pairs [(i, j)], [i < j]. *)
Theorem do_all_way_pairwise_tests_any_pair :
  forall (num_groups : Z) (pairwise_sig : float) (s : RandomState),
    (2 <= num_groups)%Z ->
    exists groups s' outcome,
      draw_groups num_groups s = Ok (groups, s') /\
      Z.of_nat (length groups) = num_groups /\
      Z.of_nat (length (combinations groups 2))
        = (num_groups * (num_groups - 1) / 2)%Z /\
      do_all_way_pairwise_tests num_groups pairwise_sig s
        = Ok (outcome, s') /\
      (outcome = true <->
         exists i j gi gj,
           i < j /\
           nth_error groups i = Some gi /\
           nth_error groups j = Some gj /\
           (ttest_pvalue (ttest_ind gi gj) <? pairwise_sig)%float = true) /\
      outcome
        = existsb (fun ij => indicator pairwise_sig
                               (nth (fst ij) groups [])
                               (nth (snd ij) groups []))
                  (index_pairs (length groups)).
Proof.
  intros n sig s Hn.
  destruct (draw_groups_ok n s) as (groups & s' & Hrun & Hlen & _).
  exists groups, s', (any (map (pair_flag sig) (combinations groups 2))).
  assert (Hn' : Z.of_nat (length groups) = n) by lia.
  split; [exact Hrun|]. split; [exact Hn'|]. split; [|split; [|split]].
  - pose proof (combinations_2_length Sample groups) as H2.
    rewrite <- Hn'.
    apply Z.div_unique_exact; [lia|]. nia.
  - now apply do_all_way_pairwise_tests_run.
  - apply any_flag_combinations.
  - apply eq_true_iff_eq. rewrite any_flag_combinations, existsb_exists. split.
    + intros (i & j & gi & gj & Hlt & Hi & Hj & Hflag).
      exists (i, j). split.
      * apply In_index_pairs. split; [exact Hlt|].
        apply nth_error_Some. congruence.
      * cbn [fst snd].
        now rewrite (nth_error_nth _ _ _ Hi), (nth_error_nth _ _ _ Hj).
    + intros ([i j] & Hin & Hflag). apply In_index_pairs in Hin.
      cbn [fst snd] in Hflag. destruct Hin as [Hij Hj].
      exists i, j, (nth i groups []), (nth j groups []).
      repeat split; [exact Hij | | | exact Hflag];
        apply nth_error_nth'; lia.
Qed.

(** C9. For [num_groups <= 1], [do_all_way_pairwise_tests] returns
    normally with [false]: it draws the [len(range(num_groups))] groups,
    the sequence of pairs is empty, and no exception is raised. *)
Theorem do_all_way_pairwise_tests_few_groups :
  forall (num_groups : Z) (pairwise_sig : float) (s : RandomState),
    (num_groups <= 1)%Z ->
    exists groups s',
      draw_groups num_groups s = Ok (groups, s') /\
      length groups = length (range num_groups) /\
      combinations groups 2 = [] /\
      do_all_way_pairwise_tests num_groups pairwise_sig s = Ok (false, s').
Proof.
  intros n sig s Hn.
  destruct (draw_groups_ok n s) as (groups & s' & Hrun & Hlen & _).
  assert (Hnil : combinations groups 2 = [])
    by (apply combinations_2_small; lia).
  exists groups, s'. rewrite range_length. repeat split; auto.
  rewrite (@do_all_way_pairwise_tests_run n sig s groups s' Hrun), Hnil. reflexivity.
Qed.

(** C7. The outcome of [do_all_way_pairwise_tests] does not depend on
    the order in which the pairs are enumerated: testing any
    permutation of the pair sequence of the drawn groups gives the same
    result. *)
Theorem do_all_way_pairwise_tests_pair_order :
  forall (num_groups : Z) (pairwise_sig : float) (s s' : RandomState)
         (groups : list Sample) (pairs' : list (list Sample)),
    draw_groups num_groups s = Ok (groups, s') ->
    Permutation (combinations groups 2) pairs' ->
    do_all_way_pairwise_tests num_groups pairwise_sig s
    = lift (any_pair_significant pairwise_sig pairs') s'.
Proof.
  intros n sig s s' groups pairs' Hrun HP.
  unfold do_all_way_pairwise_tests, mbind. rewrite Hrun.
  unfold lift. now rewrite (any_pair_significant_perm sig _ _ HP).
Qed.

(** ** The ANOVA procedure *)

Section Anova.

(** The contract of the library function: given two or more
    sequences it returns a statistic and a p-value. *)
Hypothesis f_oneway_defined :
  forall groups, 2 <= length groups -> exists r, f_oneway groups = Ok r.

(** C2. For [num_groups >= 2], [do_ANOVA] applies [f_oneway] once, to
    all the drawn groups together, and returns whether the p-value of
    that test is strictly below [sig]. *)
Theorem do_ANOVA_single_test :
  forall (num_groups : Z) (sig : float) (s : RandomState),
    (2 <= num_groups)%Z ->
    exists groups s' r,
      draw_groups num_groups s = Ok (groups, s') /\
      Z.of_nat (length groups) = num_groups /\
      f_oneway groups = Ok r /\
      do_ANOVA num_groups sig s = Ok ((f_pvalue r <? sig)%float, s').
Proof.
  intros n sig s Hn.
  destruct (draw_groups_ok n s) as (groups & s' & Hrun & Hlen & _).
  destruct (f_oneway_defined groups) as [r Hr]; [lia|].
  exists groups, s', r. repeat split; [exact Hrun | lia | exact Hr |].
  now rewrite (@do_ANOVA_run n sig s groups s' Hrun), Hr.
Qed.

End Anova.

(** ** Fewer than two groups *)

(** C3 (as the code behaves). Neither function checks [num_groups].
    For [num_groups < 2], [do_all_way_pairwise_tests] raises nothing and
    returns [false]; [do_ANOVA] hands the drawn groups (at most one) to
    [f_oneway] and raises exactly what that call raises, returning the
    comparison of its p-value with [sig] otherwise. *)
Theorem no_argument_check_below_two_groups :
  forall (num_groups : Z) (alpha : float) (s : RandomState),
    (num_groups < 2)%Z ->
    exists groups s',
      draw_groups num_groups s = Ok (groups, s') /\
      length groups <= 1 /\
      do_all_way_pairwise_tests num_groups alpha s = Ok (false, s') /\
      (forall e, do_all_way_pairwise_tests num_groups alpha s <> Raise e) /\
      do_ANOVA num_groups alpha s
      = match f_oneway groups with
        | Ok r => Ok ((f_pvalue r <? alpha)%float, s')
        | Raise e => Raise e
        end.
Proof.
  intros n alpha s Hn.
  destruct (draw_groups_ok n s) as (groups & s' & Hrun & Hlen & _).
  assert (Hfalse : do_all_way_pairwise_tests n alpha s = Ok (false, s')).
  { rewrite (@do_all_way_pairwise_tests_run n alpha s groups s' Hrun).
    rewrite combinations_2_small by lia. reflexivity. }
  exists groups, s'. repeat split; [exact Hrun | lia | exact Hfalse | |].
  - intros e He. rewrite Hfalse in He. discriminate.
  - now apply do_ANOVA_run.
Qed.

(** ** Sample sizes *)

Section SampleSize.

(** The contract of [np.random.normal]: the array has [size]
    elements. *)
Hypothesis normal_size : forall n s, length (fst (normal n s)) = n.

(** C6 (as the code behaves). [sample()] takes no size: it returns
    the array of one [np.random.normal(size=100)] call, which has
    exactly 100 elements, never raises, and leaves the generator in
    the state that call leaves it in. *)
Theorem sample_draws_100 :
  forall s : RandomState,
    sample s = Ok (normal 100 s) /\
    exists g s', sample s = Ok (g, s') /\ length g = 100.
Proof.
  intros s. split; [reflexivity|].
  exists (fst (normal 100 s)), (snd (normal 100 s)). split.
  - unfold sample. now destruct (normal 100 s).
  - apply normal_size.
Qed.


End SampleSize.

(** ** The driver cells *)

Lemma comprehension_trials :
  forall (B : Type) (procedure : M bool) (xs : list B)
         (s : RandomState) (results : list bool) (s' : RandomState),
    comprehension xs (fun _ => procedure) s = Ok (results, s') <->
    trials procedure (length xs) s results s'.
Proof.
  intros B procedure xs. induction xs as [|x xs IH]; intros s results s'.
  - cbn. unfold ret. split.
    + intros H. injection H as <- <-. constructor.
    + intros H. inversion H. reflexivity.
  - cbn [comprehension length]. unfold mbind at 1. split.
    + destruct (procedure s) as [[b s1]|e] eqn:Hp; [|discriminate].
      unfold mbind.
      destruct (comprehension xs (fun _ => procedure) s1)
        as [[bs s2]|e] eqn:Hc; [|discriminate].
      unfold ret. intros H. injection H as <- <-.
      econstructor; [exact Hp | now apply IH].
    + intros H. inversion H as [|n s0 b s1 bs s2 Hp Ht]; subst.
      rewrite Hp. unfold mbind. apply IH in Ht. now rewrite Ht.
Qed.

Lemma trials_length :
  forall procedure n s results s',
    trials procedure n s results s' -> length results = n.
Proof.
  intros procedure n s results s' H.
  induction H; simpl; congruence.
Qed.

Lemma trials_total :
  forall procedure : M bool,
    (forall s0, exists b s1, procedure s0 = Ok (b, s1)) ->
    forall n s, exists results s', trials procedure n s results s'.
Proof.
  intros procedure Htot n. induction n as [|n IH]; intros s.
  - exists [], s. constructor.
  - destruct (Htot s) as (b & s1 & Hp).
    destruct (IH s1) as (bs & s2 & Ht).
    exists (b :: bs), s2. econstructor; eassumption.
Qed.

Lemma do_all_way_pairwise_tests_total :
  forall num_groups sig s0,
    exists b s1, do_all_way_pairwise_tests num_groups sig s0 = Ok (b, s1).
Proof.
  intros n sig s0.
  destruct (draw_groups_ok n s0) as (groups & s1 & Hrun & _).
  exists (any (map (pair_flag sig) (combinations groups 2))), s1.
  exact (@do_all_way_pairwise_tests_run n sig s0 groups s1 Hrun).
Qed.

(** C4. For [num_trials > 0] and a procedure that returns on every
    call, the driver cell invokes the procedure [num_trials] times in
    sequence, and prints the number of trials whose outcome was [True]
    and that number divided by [num_trials] (float division). *)
Theorem driver_cell_counts_true_outcomes :
  forall (procedure : M bool) (num_trials : Z) (s : RandomState),
    (forall s0, exists b s1, procedure s0 = Ok (b, s1)) ->
    (0 < num_trials)%Z ->
    exists results s' empirical_FPR,
      let num_false_positives :=
        Z.of_nat (length (filter (fun outcome => outcome) results)) in
      trials procedure (Z.to_nat num_trials) s results s' /\
      Z.of_nat (length results) = num_trials /\
      int_truediv num_false_positives num_trials = Ok empirical_FPR /\
      driver_cell procedure num_trials s
      = Ok ((num_false_positives, empirical_FPR), s').
Proof.
  intros procedure n s Htot Hn.
  destruct (trials_total procedure Htot (Z.to_nat n) s) as (results & s' & Ht).
  pose proof (trials_length _ _ _ _ _ Ht) as Hlen.
  pose proof (count_true_bounds results) as Hc.
  destruct (@int_truediv_fraction (count true results) n) as [rate Hrate];
    [lia | lia |].
  exists results, s', rate. cbv zeta.
  rewrite <- count_true_filter.
  repeat split; [exact Ht | lia | exact Hrate |].
  unfold driver_cell, mbind.
  rewrite <- (range_length n) in Ht. apply comprehension_trials in Ht.
  rewrite Ht. unfold lift. rewrite Hrate. reflexivity.
Qed.

(** ** Further properties of the procedures *)

(** *** Comparison of floats *)

Lemma SFltb_leb_trans :
  forall x y z, SFltb x y = true -> SFleb y z = true -> SFltb x z = true.
Proof.
  intros x y z. unfold SFltb, SFleb, SFcompare.
  destruct x as [sx|sx| |sx mx ex], y as [sy|sy| |sy my ey],
           z as [sz|sz| |sz mz ez];
    try discriminate; try reflexivity;
    repeat match goal with
           | b : bool |- _ => destruct b
           end;
    try discriminate; try reflexivity;
    change (Pos.compare_cont Eq) with Pos.compare;
    repeat match goal with
           | |- context [Z.compare ?a ?b] =>
               destruct (Z.compare_spec a b); subst
           | |- context [Pos.compare ?a ?b] =>
               destruct (Pos.compare_spec a b); subst
           end;
    cbn; try discriminate; try reflexivity; try lia.
Qed.

Lemma ltb_leb_trans :
  forall p sig1 sig2 : float,
    (p <? sig1)%float = true -> (sig1 <=? sig2)%float = true ->
    (p <? sig2)%float = true.
Proof.
  intros p sig1 sig2. rewrite !ltb_spec, leb_spec. apply SFltb_leb_trans.
Qed.

Lemma ltb_nan_r :
  forall p sig : float, is_nan sig = true -> (p <? sig)%float = false.
Proof.
  intros p sig H. rewrite ltb_spec. unfold Prim2SF at 2. rewrite H.
  unfold SFltb, SFcompare. now destruct (Prim2SF p).
Qed.

(** *** What the generator is asked for *)

Lemma after_samples_add :
  forall a b s, after_samples (a + b) s = after_samples b (after_samples a s).
Proof.
  induction a as [|a IH]; intros b s; [reflexivity|].
  cbn [Nat.add after_samples]. apply IH.
Qed.

Lemma successive_samples_add :
  forall a b s,
    successive_samples (a + b) s
    = successive_samples a s ++ successive_samples b (after_samples a s).
Proof.
  induction a as [|a IH]; intros b s; [reflexivity|].
  cbn [Nat.add after_samples successive_samples app]. now rewrite IH.
Qed.

Lemma successive_samples_length :
  forall k s, length (successive_samples k s) = k.
Proof.
  induction k as [|k IH]; intros s; [reflexivity|].
  cbn [successive_samples length]. now rewrite IH.
Qed.

Lemma comprehension_sample_exact :
  forall (B : Type) (xs : list B) (s : RandomState),
    comprehension xs (fun _ => sample) s
    = Ok (successive_samples (length xs) s, after_samples (length xs) s).
Proof.
  intros B xs. induction xs as [|x xs IH]; intros s; [reflexivity|].
  cbn [comprehension length successive_samples after_samples].
  unfold mbind at 1. unfold sample at 1.
  destruct (normal 100 s) as [g s1]. cbn [fst snd].
  unfold mbind. now rewrite IH.
Qed.

Lemma draw_groups_exact :
  forall num_groups s,
    draw_groups num_groups s
    = Ok (successive_samples (Z.to_nat num_groups) s,
          after_samples (Z.to_nat num_groups) s).
Proof.
  intros n s. unfold draw_groups.
  now rewrite comprehension_sample_exact, range_length.
Qed.

(** X1. Each call of either procedure asks the generator for exactly
    [len(range(num_groups))] samples, whatever the threshold and the
    outcome: the groups are these successive samples in order, and the
    generator is left where the last of them left it. *)
Theorem procedures_consume_num_groups_samples :
  forall (num_groups : Z) (sig : float) (s : RandomState),
    let k := Z.to_nat num_groups in
    draw_groups num_groups s
    = Ok (successive_samples k s, after_samples k s) /\
    (exists outcome,
        do_all_way_pairwise_tests num_groups sig s
        = Ok (outcome, after_samples k s)) /\
    (forall outcome s',
        do_ANOVA num_groups sig s = Ok (outcome, s') ->
        s' = after_samples k s).
Proof.
  intros n sig s k. pose proof (draw_groups_exact n s) as Hrun.
  fold k in Hrun. split; [exact Hrun|]. split.
  - eexists. exact (do_all_way_pairwise_tests_run n sig s _ _ Hrun).
  - intros outcome s'. rewrite (do_ANOVA_run n sig s _ _ Hrun).
    destruct (f_oneway (successive_samples k s)); [|discriminate].
    intros H. now injection H.
Qed.

(** ** Seeding *)

(** C5. A run of either procedure performed after [np.random.seed(value)]
    is determined by [value] and the arguments alone.  When the seed is
    accepted, the groups are the first [len(range(num_groups))] samples
    of the generator state that the seed installs, the pairwise outcome
    is the OR of the indicators over their pairs and the ANOVA outcome
    is the comparison of [f_oneway]'s p-value on them, whatever the
    generator went through before; a refused seed raises [ValueError]
    before anything is drawn.  Hence two such runs with the same seed
    and arguments produce identical groups and identical outcomes. *)
Theorem seeded_runs_depend_on_seed_only :
  forall (value num_groups : Z) (sig : float),
    let k := Z.to_nat num_groups in
    let seeded := seed_state value in
    let groups := successive_samples k seeded in
    let accepted := (0 <=? value)%Z && (value <=? 4294967295)%Z in
    (forall s,
        (_ <- np_random_seed value ;; draw_groups num_groups) s
        = if accepted
          then Ok (groups, after_samples k seeded)
          else Raise ValueError) /\
    (forall s,
        (_ <- np_random_seed value ;;
         do_all_way_pairwise_tests num_groups sig) s
        = if accepted
          then Ok (existsb (fun ij => indicator sig (nth (fst ij) groups [])
                                                    (nth (snd ij) groups []))
                           (index_pairs k),
                   after_samples k seeded)
          else Raise ValueError) /\
    (forall s,
        (_ <- np_random_seed value ;; do_ANOVA num_groups sig) s
        = if accepted
          then match f_oneway groups with
               | Ok r => Ok ((f_pvalue r <? sig)%float, after_samples k seeded)
               | Raise e => Raise e
               end
          else Raise ValueError) /\
    (forall s1 s2,
        (_ <- np_random_seed value ;; draw_groups num_groups) s1
        = (_ <- np_random_seed value ;; draw_groups num_groups) s2 /\
        (_ <- np_random_seed value ;;
         do_all_way_pairwise_tests num_groups sig) s1
        = (_ <- np_random_seed value ;;
           do_all_way_pairwise_tests num_groups sig) s2 /\
        (_ <- np_random_seed value ;; do_ANOVA num_groups sig) s1
        = (_ <- np_random_seed value ;; do_ANOVA num_groups sig) s2).
Proof.
  intros value n sig k seeded groups accepted.
  assert (Hdraw : forall s,
             (_ <- np_random_seed value ;; draw_groups n) s
             = if accepted
               then Ok (groups, after_samples k seeded)
               else Raise ValueError).
  { intros s. unfold mbind at 1, np_random_seed. fold accepted.
    destruct accepted; [|reflexivity]. apply draw_groups_exact. }
  assert (Hpair : forall s,
             (_ <- np_random_seed value ;;
              do_all_way_pairwise_tests n sig) s
             = if accepted
               then Ok (existsb
                          (fun ij => indicator sig (nth (fst ij) groups [])
                                                   (nth (snd ij) groups []))
                          (index_pairs k),
                        after_samples k seeded)
               else Raise ValueError).
  { intros s. unfold mbind at 1, np_random_seed. fold accepted.
    destruct accepted; [|reflexivity].
    rewrite (do_all_way_pairwise_tests_run n sig (seed_state value) _ _
               (draw_groups_exact n (seed_state value))).
    rewrite any_flag_index_pairs, successive_samples_length. reflexivity. }
  assert (Hanova : forall s,
             (_ <- np_random_seed value ;; do_ANOVA n sig) s
             = if accepted
               then match f_oneway groups with
                    | Ok r => Ok ((f_pvalue r <? sig)%float,
                                  after_samples k seeded)
                    | Raise e => Raise e
                    end
               else Raise ValueError).
  { intros s. unfold mbind at 1, np_random_seed. fold accepted.
    destruct accepted; [|reflexivity].
    exact (do_ANOVA_run n sig (seed_state value) _ _
             (draw_groups_exact n (seed_state value))). }
  repeat split; try assumption;
    first [ now rewrite !Hdraw | now rewrite !Hpair | now rewrite !Hanova ].
Qed.

(** X2. With two groups the pairwise procedure is a single t-test on
    two successive samples, as its docstring says. *)
Theorem two_groups_is_one_t_test :
  forall (pairwise_sig : float) (s : RandomState),
    let (g1, s1) := normal 100 s in
    let (g2, s2) := normal 100 s1 in
    do_all_way_pairwise_tests 2 pairwise_sig s
    = Ok ((ttest_pvalue (ttest_ind g1 g2) <? pairwise_sig)%float, s2).
Proof.
  intros sig s.
  rewrite (do_all_way_pairwise_tests_run 2 sig s _ _ (draw_groups_exact 2 s)).
  change (Z.to_nat 2) with 2.
  cbn [successive_samples after_samples].
  destruct (normal 100 s) as [g1 s1]. cbn [fst snd].
  destruct (normal 100 s1) as [g2 s2]. cbn [fst snd].
  cbn. unfold indicator.
  now destruct (ttest_pvalue (ttest_ind g1 g2) <? sig)%float.
Qed.

Lemma pairwise_threshold_step :
  forall (num_groups : Z) (sig1 sig2 : float) (s s' : RandomState) (b : bool),
    (sig1 <=? sig2)%float = true ->
    do_all_way_pairwise_tests num_groups sig1 s = Ok (b, s') ->
    exists b',
      do_all_way_pairwise_tests num_groups sig2 s = Ok (b', s') /\
      (b = true -> b' = true).
Proof.
  intros n sig1 sig2 s s' b Hle.
  rewrite !(do_all_way_pairwise_tests_run n _ s _ _ (draw_groups_exact n s)).
  intros H. injection H as H Hs. rewrite <- Hs.
  eexists. split; [reflexivity|]. intros Hb. rewrite Hb in H.
  apply any_flag_combinations in H. apply any_flag_combinations.
  destruct H as (i & j & gi & gj & Hlt & Hi & Hj & Hflag).
  exists i, j, gi, gj. repeat split; try assumption.
  unfold indicator in *. eapply ltb_leb_trans; eassumption.
Qed.

(** X3. For the same generator state, a positive outcome of the
    pairwise procedure stays positive when the threshold is raised (so
    it cannot be positive at the Bonferroni threshold and negative at
    the uncorrected one). *)
Theorem pairwise_positive_at_larger_threshold :
  forall (num_groups : Z) (sig1 sig2 : float) (s s' : RandomState),
    (sig1 <=? sig2)%float = true ->
    do_all_way_pairwise_tests num_groups sig1 s = Ok (true, s') ->
    do_all_way_pairwise_tests num_groups sig2 s = Ok (true, s').
Proof.
  intros n sig1 sig2 s s' Hle Hrun.
  destruct (pairwise_threshold_step n sig1 sig2 s s' true Hle Hrun)
    as (b' & Hrun' & Hb).
  now rewrite <- (Hb eq_refl).
Qed.

(** X4. Likewise for the ANOVA procedure: rejecting at a threshold
    implies rejecting at any larger one, on the same draws. *)
Theorem anova_positive_at_larger_threshold :
  forall (num_groups : Z) (sig1 sig2 : float) (s s' : RandomState),
    (sig1 <=? sig2)%float = true ->
    do_ANOVA num_groups sig1 s = Ok (true, s') ->
    do_ANOVA num_groups sig2 s = Ok (true, s').
Proof.
  intros n sig1 sig2 s s' Hle.
  rewrite !(do_ANOVA_run n _ s _ _ (draw_groups_exact n s)).
  destruct (f_oneway (successive_samples (Z.to_nat n) s)) as [r|e];
    [|discriminate].
  intros H. injection H as H Hs. rewrite <- Hs.
  now rewrite (ltb_leb_trans _ _ _ H Hle).
Qed.

(** X5. For the same generator state, a positive outcome of the
    pairwise procedure stays positive when more groups are drawn: the
    first groups are the same samples, so every pair tested before is
    tested again. *)
Theorem pairwise_positive_with_more_groups :
  forall (num_groups more_groups : Z) (pairwise_sig : float)
         (s s' : RandomState),
    (num_groups <= more_groups)%Z ->
    do_all_way_pairwise_tests num_groups pairwise_sig s = Ok (true, s') ->
    do_all_way_pairwise_tests more_groups pairwise_sig s
    = Ok (true, after_samples (Z.to_nat more_groups) s).
Proof.
  intros n m sig s s' Hnm.
  rewrite !(do_all_way_pairwise_tests_run _ sig s _ _ (draw_groups_exact _ s)).
  intros H. injection H as H _. f_equal. f_equal.
  apply any_flag_combinations in H. apply any_flag_combinations.
  destruct H as (i & j & gi & gj & Hlt & Hi & Hj & Hflag).
  exists i, j, gi, gj. repeat split; try assumption.
  - replace (Z.to_nat m) with (Z.to_nat n + (Z.to_nat m - Z.to_nat n)) by lia.
    rewrite successive_samples_add, nth_error_app1; [exact Hi|].
    apply nth_error_Some. congruence.
  - replace (Z.to_nat m) with (Z.to_nat n + (Z.to_nat m - Z.to_nat n)) by lia.
    rewrite successive_samples_add, nth_error_app1; [exact Hj|].
    apply nth_error_Some. congruence.
Qed.

(** X6. The thresholds are not validated: with a NaN threshold the
    pairwise procedure reports [False] on every run, and so does the
    ANOVA procedure whenever [f_oneway] returns. *)
Theorem nan_threshold_reports_nothing :
  forall (num_groups : Z) (sig : float) (s : RandomState),
    is_nan sig = true ->
    let k := Z.to_nat num_groups in
    do_all_way_pairwise_tests num_groups sig s
    = Ok (false, after_samples k s) /\
    (forall r,
        f_oneway (successive_samples k s) = Ok r ->
        do_ANOVA num_groups sig s = Ok (false, after_samples k s)).
Proof.
  intros n sig s Hnan k. split.
  - rewrite (do_all_way_pairwise_tests_run n sig s _ _ (draw_groups_exact n s)).
    fold k. f_equal. f_equal. apply not_true_is_false. intros H.
    apply any_flag_combinations in H.
    destruct H as (i & j & gi & gj & _ & _ & _ & Hflag).
    unfold indicator in Hflag. rewrite (ltb_nan_r _ _ Hnan) in Hflag.
    discriminate.
  - intros r Hr.
    rewrite (do_ANOVA_run n sig s _ _ (draw_groups_exact n s)).
    fold k. rewrite Hr. now rewrite (ltb_nan_r _ _ Hnan).
Qed.

(** ** Further properties of the driver cells *)

Lemma mbind_ok :
  forall (A B : Type) (c : M A) (k : A -> M B) s a s',
    c s = Ok (a, s') -> mbind c k s = k a s'.
Proof. intros A B c k s a s' H. unfold mbind. now rewrite H. Qed.

Lemma mbind_raise :
  forall (A B : Type) (c : M A) (k : A -> M B) s e,
    c s = Raise e -> mbind c k s = Raise e.
Proof. intros A B c k s e H. unfold mbind. now rewrite H. Qed.

Lemma driver_cell_inv :
  forall procedure num_trials s c r s',
    driver_cell procedure num_trials s = Ok ((c, r), s') ->
    exists results,
      trials procedure (Z.to_nat num_trials) s results s' /\
      c = count true results /\
      int_truediv c num_trials = Ok r.
Proof.
  intros procedure N s c r s'. unfold driver_cell. unfold mbind at 1.
  destruct (comprehension (range N) (fun _ => procedure) s)
    as [[results s1]|e] eqn:Hc; [|discriminate].
  unfold mbind, lift.
  destruct (int_truediv (count true results) N) as [rate|e] eqn:Hd;
    [|discriminate].
  unfold ret. intros H. injection H as <- <- <-.
  exists results. apply comprehension_trials in Hc.
  rewrite range_length in Hc. auto.
Qed.

Lemma driver_cell_of_trials :
  forall procedure num_trials s results s' r,
    trials procedure (Z.to_nat num_trials) s results s' ->
    int_truediv (count true results) num_trials = Ok r ->
    driver_cell procedure num_trials s
    = Ok ((count true results, r), s').
Proof.
  intros procedure N s results s' r Ht Hd.
  rewrite <- (range_length N) in Ht. apply comprehension_trials in Ht.
  unfold driver_cell. rewrite (mbind_ok _ _ _ _ _ _ _ Ht).
  unfold mbind, lift. now rewrite Hd.
Qed.

Lemma int_truediv_count :
  forall results num_trials,
    num_trials <> 0%Z ->
    length results = Z.to_nat num_trials ->
    exists r, int_truediv (count true results) num_trials = Ok r.
Proof.
  intros results N HN Hlen. pose proof (count_true_bounds results) as Hc.
  destruct (Z.lt_trichotomy N 0) as [Hneg|[H0|Hpos]]; [|contradiction|].
  - assert (Hz : count true results = 0%Z) by lia. rewrite Hz.
    destruct N; try lia. eexists. reflexivity.
  - apply int_truediv_fraction; lia.
Qed.

Lemma trials_monotone :
  forall (p1 p2 : M bool),
    (forall s b s', p1 s = Ok (b, s') ->
                    exists b', p2 s = Ok (b', s') /\ (b = true -> b' = true)) ->
    forall n s results s',
      trials p1 n s results s' ->
      exists results',
        trials p2 n s results' s' /\
        (count true results <= count true results')%Z.
Proof.
  intros p1 p2 Hstep n s results s' Ht.
  induction Ht as [s|n s b s1 bs s2 Hp _ IH].
  - exists []. split; [constructor | reflexivity].
  - destruct (Hstep _ _ _ Hp) as (b' & Hp' & Hb).
    destruct IH as (bs' & Ht' & Hle).
    exists (b' :: bs'). split; [econstructor; eassumption|].
    cbn [count]. destruct b, b'; cbn [Bool.eqb]; lia.
Qed.

Lemma trials_consume :
  forall (procedure : M bool) (k : nat),
    (forall s0, exists b, procedure s0 = Ok (b, after_samples k s0)) ->
    forall n s,
      exists results, trials procedure n s results (after_samples (n * k) s).
Proof.
  intros procedure k Hp n. induction n as [|n IH]; intros s.
  - exists []. constructor.
  - destruct (Hp s) as [b Hb].
    destruct (IH (after_samples k s)) as [bs Hbs].
    exists (b :: bs). cbn [Nat.mul]. rewrite after_samples_add.
    econstructor; eassumption.
Qed.

Lemma driver_cell_consumes :
  forall (procedure : M bool) (k : nat) (num_trials : Z) (s : RandomState),
    (forall s0, exists b, procedure s0 = Ok (b, after_samples k s0)) ->
    (0 < num_trials)%Z ->
    exists c r,
      driver_cell procedure num_trials s
      = Ok ((c, r), after_samples (Z.to_nat num_trials * k) s) /\
      (0 <= c <= num_trials)%Z.
Proof.
  intros procedure k N s Hp HN.
  destruct (trials_consume procedure k Hp (Z.to_nat N) s) as [results Ht].
  pose proof (trials_length _ _ _ _ _ Ht) as Hlen.
  destruct (int_truediv_count results N) as [r Hr]; [lia | exact Hlen |].
  exists (count true results), r. split.
  - now apply driver_cell_of_trials.
  - pose proof (count_true_bounds results). lia.
Qed.

Lemma do_all_way_pairwise_tests_consumes :
  forall num_groups sig s0,
    exists b,
      do_all_way_pairwise_tests num_groups sig s0
      = Ok (b, after_samples (Z.to_nat num_groups) s0).
Proof.
  intros n sig s0. eexists.
  exact (do_all_way_pairwise_tests_run n sig s0 _ _ (draw_groups_exact n s0)).
Qed.

(** X7. From the same generator state, a driver cell run at a larger
    threshold sees the same samples, and its count of positives is at
    least the count at the smaller threshold. *)
Theorem driver_count_grows_with_threshold :
  forall (num_groups num_trials : Z) (sig1 sig2 : float)
         (s s' : RandomState) (c1 : Z) (r1 : float),
    (sig1 <=? sig2)%float = true ->
    driver_cell (do_all_way_pairwise_tests num_groups sig1) num_trials s
    = Ok ((c1, r1), s') ->
    exists c2 r2,
      driver_cell (do_all_way_pairwise_tests num_groups sig2) num_trials s
      = Ok ((c2, r2), s') /\
      (c1 <= c2)%Z.
Proof.
  intros n N sig1 sig2 s s' c1 r1 Hle Hrun.
  destruct (driver_cell_inv _ _ _ _ _ _ Hrun) as (results & Ht & -> & Hd).
  assert (HN : N <> 0%Z) by (intros ->; discriminate Hd).
  assert (Hstep : forall s0 b s1,
             do_all_way_pairwise_tests n sig1 s0 = Ok (b, s1) ->
             exists b',
               do_all_way_pairwise_tests n sig2 s0 = Ok (b', s1) /\
               (b = true -> b' = true)).
  { intros s0 b s1 Hb.
    exact (pairwise_threshold_step n sig1 sig2 s0 s1 b Hle Hb). }
  destruct (trials_monotone _ _ Hstep _ _ _ _ Ht)
    as (results' & Ht' & Hcount).
  destruct (int_truediv_count results' N HN (trials_length _ _ _ _ _ Ht'))
    as [r2 Hr2].
  exists (count true results'), r2. split; [|exact Hcount].
  now apply driver_cell_of_trials.
Qed.

(** X8. With [num_trials <= 0] a driver cell never invokes the
    procedure: for [0] the division raises [ZeroDivisionError]; for a
    negative value it prints [0] and [-0.0] and leaves the generator
    untouched. *)
Theorem driver_cell_without_trials :
  forall (procedure : M bool) (num_trials : Z) (s : RandomState),
    (num_trials <= 0)%Z ->
    driver_cell procedure num_trials s
    = if (num_trials =? 0)%Z then Raise ZeroDivisionError
      else Ok ((0%Z, neg_zero), s).
Proof.
  intros procedure N s HN. unfold driver_cell, range.
  replace (Z.to_nat N) with 0 by lia.
  destruct N as [|p|p]; [reflexivity | lia | reflexivity].
Qed.

(** X9. A driver cell stops at the first trial that raises: when the
    first [k] trials return and the next one raises [e], with
    [k < num_trials], the cell raises [e] and prints nothing. *)
Theorem driver_cell_aborts_on_first_failure :
  forall (procedure : M bool) (num_trials : Z) (s s1 : RandomState)
         (k : nat) (results : list bool) (e : exn),
    trials procedure k s results s1 ->
    procedure s1 = Raise e ->
    k < Z.to_nat num_trials ->
    driver_cell procedure num_trials s = Raise e.
Proof.
  intros procedure N s s1 k results e Ht He Hk.
  unfold driver_cell. apply mbind_raise.
  rewrite <- (range_length N) in Hk. revert Hk.
  generalize (range N) as xs. induction Ht as [s|n s b s1' bs s2 Hp _ IH];
    intros [|x xs] Hk; cbn [length] in Hk; try lia.
  - cbn [comprehension]. now apply mbind_raise.
  - cbn [comprehension]. rewrite (mbind_ok _ _ _ _ _ _ _ Hp).
    apply mbind_raise. apply IH; [exact He | lia].
Qed.

(** X10. A driver cell over the pairwise procedure with
    [num_trials > 0] always prints a result: it asks the generator for
    [num_trials * len(range(num_groups))] samples in all, and the count
    lies between [0] and [num_trials]. *)
Theorem driver_cell_consumes_trials_times_groups :
  forall (num_groups num_trials : Z) (pairwise_sig : float)
         (s : RandomState),
    (0 < num_trials)%Z ->
    exists c r,
      driver_cell (do_all_way_pairwise_tests num_groups pairwise_sig)
        num_trials s
      = Ok ((c, r),
            after_samples (Z.to_nat num_trials * Z.to_nat num_groups) s) /\
      (0 <= c <= num_trials)%Z.
Proof.
  intros n N sig s HN. apply driver_cell_consumes; [|exact HN].
  apply do_all_way_pairwise_tests_consumes.
Qed.

(** ** The notebook as a whole *)

Section WholeRun.

(** The contract of the library function, as in the section [Anova]. *)
Hypothesis f_oneway_returns :
  forall groups, 2 <= length groups -> exists r, f_oneway groups = Ok r.

Lemma do_ANOVA_consumes :
  forall num_groups sig s0,
    (2 <= num_groups)%Z ->
    exists b,
      do_ANOVA num_groups sig s0
      = Ok (b, after_samples (Z.to_nat num_groups) s0).
Proof.
  intros n sig s0 Hn.
  rewrite (do_ANOVA_run n sig s0 _ _ (draw_groups_exact n s0)).
  destruct (f_oneway_returns (successive_samples (Z.to_nat n) s0)) as [r Hr].
  - rewrite successive_samples_length. lia.
  - rewrite Hr. eexists. reflexivity.
Qed.

Lemma bonferroni_cell_consumes :
  forall s0,
    exists b,
      (pairwise_sig <- lift (float_truediv_int sig_05 3) ;;
       do_all_way_pairwise_tests 3 pairwise_sig) s0
      = Ok (b, after_samples 3 s0).
Proof.
  intros s0.
  assert (Hdiv : exists v, float_truediv_int sig_05 3 = Ok v)
    by (eexists; vm_compute; reflexivity).
  destruct Hdiv as [v Hv]. unfold mbind, lift. rewrite Hv.
  apply (do_all_way_pairwise_tests_consumes 3 v s0).
Qed.

(** X11. Run from top to bottom, in any process, the notebook raises
    nothing: every cell prints its result, each count lies between 0
    and 1000, and the generator ends 31003 samples after the state
    [np.random.seed(5000)] installs (2000 + 3000 + 20000 + 3000 for the
    pairwise cells, 3 for cell 10 and 3000 for the ANOVA cell). *)
Theorem notebook_runs_to_completion :
  forall s0 : RandomState,
    exists out,
      notebook s0
      = Ok (out, after_samples (Z.to_nat 31003) (seed_state 5000)) /\
      Forall (fun printed => (0 <= fst printed <= 1000)%Z)
             [out_cell5 out; out_cell6 out; out_cell7 out;
              out_cell8 out; out_cell11 out].
Proof.
  intros s0.
  assert (H1000 : (0 < 1000)%Z) by lia.
  set (sA := seed_state 5000).
  destruct (driver_cell_consumes _ 2 1000 sA
              (do_all_way_pairwise_tests_consumes 2 sig_05) H1000)
    as (c5 & r5 & H5 & B5).
  set (s5 := after_samples (Z.to_nat 1000 * 2) sA) in *.
  destruct (driver_cell_consumes _ 3 1000 s5
              (do_all_way_pairwise_tests_consumes 3 sig_05) H1000)
    as (c6 & r6 & H6 & B6).
  set (s6 := after_samples (Z.to_nat 1000 * 3) s5) in *.
  destruct (driver_cell_consumes _ 20 1000 s6
              (do_all_way_pairwise_tests_consumes 20 sig_05) H1000)
    as (c7 & r7 & H7 & B7).
  set (s7 := after_samples (Z.to_nat 1000 * 20) s6) in *.
  destruct (driver_cell_consumes _ 3 1000 s7 bonferroni_cell_consumes H1000)
    as (c8 & r8 & H8 & B8).
  set (s8 := after_samples (Z.to_nat 1000 * 3) s7) in *.
  destruct (do_ANOVA_consumes 3 sig_05 s8) as [b10 H10]; [lia|].
  set (s10 := after_samples (Z.to_nat 3) s8) in *.
  destruct (driver_cell_consumes _ 3 1000 s10
              (fun s => do_ANOVA_consumes 3 sig_05 s ltac:(lia)) H1000)
    as (c11 & r11 & H11 & B11).
  assert (Hs : after_samples (Z.to_nat 1000 * 3) s10
               = after_samples (Z.to_nat 31003) sA).
  { subst s10 s8 s7 s6 s5. rewrite <- !after_samples_add.
    replace (Z.to_nat 31003)
      with (Z.to_nat 1000 * 2 + Z.to_nat 1000 * 3 + Z.to_nat 1000 * 20
            + Z.to_nat 1000 * 3 + Z.to_nat 3 + Z.to_nat 1000 * 3) by lia.
    reflexivity. }
  exists {| out_cell5 := (c5, r5); out_cell6 := (c6, r6);
            out_cell7 := (c7, r7); out_cell8 := (c8, r8);
            out_cell10 := b10; out_cell11 := (c11, r11) |}.
  split.
  - unfold notebook.
    rewrite (mbind_ok _ _ (np_random_seed 5000) _ s0 tt sA eq_refl).
    rewrite (mbind_ok _ _ _ _ _ _ _ H5).
    rewrite (mbind_ok _ _ _ _ _ _ _ H6).
    rewrite (mbind_ok _ _ _ _ _ _ _ H7).
    rewrite (mbind_ok _ _ _ _ _ _ _ H8).
    rewrite (mbind_ok _ _ _ _ _ _ _ H10).
    rewrite (mbind_ok _ _ _ _ _ _ _ H11).
    unfold ret. rewrite Hs. reflexivity.
  - cbn [out_cell5 out_cell6 out_cell7 out_cell8 out_cell11].
    repeat constructor; cbn [fst]; lia.
Qed.

End WholeRun.

End Notebook.

Arguments np_random_seed {RandomState} seed_state value _.
Arguments sample {RandomState} normal _.
Arguments draw_groups {RandomState} normal num_groups _.
Arguments do_all_way_pairwise_tests {RandomState} normal ttest_ind
  num_groups pairwise_sig _.
Arguments do_ANOVA {RandomState} normal f_oneway num_groups sig _.
Arguments driver_cell {RandomState} procedure num_trials _.
Arguments trials {RandomState} procedure _ _ _ _.
Arguments after_samples {RandomState} normal k s.
Arguments successive_samples {RandomState} normal k s.
Arguments notebook {RandomState} seed_state normal ttest_ind f_oneway _.

(** ** Evaluating the embedding *)

Example combinations_abcd :
  combinations [1; 2; 3; 4]%Z 2
  = [[1; 2]; [1; 3]; [1; 4]; [2; 3]; [2; 4]; [3; 4]]%Z.
Proof. reflexivity. Qed.

Example range_negative : range (-3) = [].
Proof. reflexivity. Qed.

Example truediv_37_1000 : int_truediv 37 1000 = Ok 0x1.2f1a9fbe76c8bp-5%float.
Proof. vm_compute. reflexivity. Qed.

Example truediv_1_3 : int_truediv 1 3 = Ok (1 / 3)%float.
Proof. vm_compute. reflexivity. Qed.

Example truediv_0_neg : int_truediv 0 (-4) = Ok neg_zero.
Proof. vm_compute. reflexivity. Qed.

Example truediv_by_zero : int_truediv 5 0 = Raise ZeroDivisionError.
Proof. reflexivity. Qed.

Example truediv_overflow : int_truediv (10 ^ 400) 1 = Raise OverflowError.
Proof. vm_compute. reflexivity. Qed.

Example index_pairs_4 :
  index_pairs 4 = [(0, 1); (0, 2); (0, 3); (1, 2); (1, 3); (2, 3)].
Proof. reflexivity. Qed.

Example stub_groups_shape :
  match draw_groups Stub.normal 3 (Stub.seed_state 5000) with
  | Ok (groups, _) => map (@length float) groups
  | Raise _ => []
  end = [100; 100; 100].
Proof. vm_compute. reflexivity. Qed.

Example stub_driver_cell_20 :
  driver_cell (do_all_way_pairwise_tests Stub.normal Stub.ttest_ind 3 0.125)
              20 (Stub.seed_state 5000)
  = Ok ((15%Z, 0.75%float), 1825661656%Z).
Proof. vm_compute. reflexivity. Qed.

Example stub_driver_cell_no_trials :
  driver_cell (do_all_way_pairwise_tests Stub.normal Stub.ttest_ind 3 0.125)
              0 (Stub.seed_state 5000)
  = Raise ZeroDivisionError.
Proof. vm_compute. reflexivity. Qed.

Example stub_do_ANOVA_3 :
  do_ANOVA Stub.normal Stub.f_oneway 3 sig_05 (Stub.seed_state 5000)
  = Ok (true, 1061796140%Z).
Proof. vm_compute. reflexivity. Qed.

(** The stand-in libraries honour the contracts assumed above. *)

Lemma stub_normal_size :
  forall n s, length (fst (Stub.normal n s)) = n.
Proof.
  induction n as [|n IH]; intros s; [reflexivity|].
  cbn [Stub.normal]. destruct (Stub.draw s) as [x s1].
  specialize (IH s1). destruct (Stub.normal n s1) as [xs s2].
  cbn [fst length] in *. now rewrite IH.
Qed.

Lemma stub_f_oneway_defined :
  forall groups, 2 <= length groups -> exists r, Stub.f_oneway groups = Ok r.
Proof.
  intros [|g [|h rest]] H; simpl in H; try lia.
  eexists. reflexivity.
Qed.

(** ** The statements on a concrete run *)

Lemma do_all_way_pairwise_tests_any_pair_witness :
  (2 <= 3)%Z /\
  exists groups s' outcome,
    draw_groups Stub.normal 3 (Stub.seed_state 5000) = Ok (groups, s') /\
    Z.of_nat (length groups) = 3%Z /\
    Z.of_nat (length (combinations groups 2)) = (3 * (3 - 1) / 2)%Z /\
    do_all_way_pairwise_tests Stub.normal Stub.ttest_ind 3 sig_05
      (Stub.seed_state 5000) = Ok (outcome, s') /\
    (outcome = true <->
       exists i j gi gj,
         i < j /\
         nth_error groups i = Some gi /\
         nth_error groups j = Some gj /\
         (ttest_pvalue (Stub.ttest_ind gi gj) <? sig_05)%float = true) /\
    outcome
      = existsb (fun ij => indicator Stub.ttest_ind sig_05
                             (nth (fst ij) groups [])
                             (nth (snd ij) groups []))
                (index_pairs (length groups)).
Proof.
  split; [lia|].
  apply (do_all_way_pairwise_tests_any_pair
           Stub.RandomState Stub.normal Stub.ttest_ind
           3 sig_05 (Stub.seed_state 5000)).
  lia.
Defined.

Lemma do_all_way_pairwise_tests_few_groups_witness :
  (1 <= 1)%Z /\
  exists groups s',
    draw_groups Stub.normal 1 (Stub.seed_state 5000) = Ok (groups, s') /\
    length groups = length (range 1) /\
    combinations groups 2 = [] /\
    do_all_way_pairwise_tests Stub.normal Stub.ttest_ind 1 sig_05
      (Stub.seed_state 5000) = Ok (false, s').
Proof.
  split; [lia|].
  apply (do_all_way_pairwise_tests_few_groups
           Stub.RandomState Stub.normal Stub.ttest_ind
           1 sig_05 (Stub.seed_state 5000)).
  lia.
Defined.

Lemma do_all_way_pairwise_tests_pair_order_witness :
  match draw_groups Stub.normal 3 (Stub.seed_state 5000) with
  | Ok (groups, s') =>
      Permutation (combinations groups 2) (rev (combinations groups 2)) /\
      do_all_way_pairwise_tests Stub.normal Stub.ttest_ind 3 sig_05
        (Stub.seed_state 5000)
      = lift Stub.RandomState
          (any_pair_significant Stub.ttest_ind sig_05
             (rev (combinations groups 2))) s'
  | Raise _ => False
  end.
Proof.
  destruct (draw_groups Stub.normal 3 (Stub.seed_state 5000))
    as [[groups s']|e] eqn:Hrun.
  - split; [apply Permutation_rev|].
    apply (do_all_way_pairwise_tests_pair_order
             Stub.RandomState Stub.normal Stub.ttest_ind
             3 sig_05 (Stub.seed_state 5000) s' groups
             (rev (combinations groups 2)) Hrun).
    apply Permutation_rev.
  - vm_compute in Hrun. discriminate Hrun.
Defined.

Lemma do_ANOVA_single_test_witness :
  (2 <= 3)%Z /\
  exists groups s' r,
    draw_groups Stub.normal 3 (Stub.seed_state 5000) = Ok (groups, s') /\
    Z.of_nat (length groups) = 3%Z /\
    Stub.f_oneway groups = Ok r /\
    do_ANOVA Stub.normal Stub.f_oneway 3 sig_05 (Stub.seed_state 5000)
    = Ok ((f_pvalue r <? sig_05)%float, s').
Proof.
  split; [lia|].
  apply (do_ANOVA_single_test
           Stub.RandomState Stub.normal Stub.f_oneway stub_f_oneway_defined
           3 sig_05 (Stub.seed_state 5000)).
  lia.
Defined.

Lemma no_argument_check_below_two_groups_witness :
  (1 < 2)%Z /\
  exists groups s',
    draw_groups Stub.normal 1 (Stub.seed_state 5000) = Ok (groups, s') /\
    length groups <= 1 /\
    do_all_way_pairwise_tests Stub.normal Stub.ttest_ind 1 sig_05
      (Stub.seed_state 5000) = Ok (false, s') /\
    (forall e,
        do_all_way_pairwise_tests Stub.normal Stub.ttest_ind 1 sig_05
          (Stub.seed_state 5000) <> Raise e) /\
    do_ANOVA Stub.normal Stub.f_oneway 1 sig_05 (Stub.seed_state 5000)
    = match Stub.f_oneway groups with
      | Ok r => Ok ((f_pvalue r <? sig_05)%float, s')
      | Raise e => Raise e
      end.
Proof.
  split; [lia|].
  apply (no_argument_check_below_two_groups
           Stub.RandomState Stub.normal Stub.ttest_ind Stub.f_oneway
           1 sig_05 (Stub.seed_state 5000)).
  lia.
Defined.

Lemma sample_draws_100_witness :
  sample Stub.normal (Stub.seed_state 5000)
  = Ok (Stub.normal 100 (Stub.seed_state 5000)) /\
  exists g s',
    sample Stub.normal (Stub.seed_state 5000) = Ok (g, s') /\ length g = 100.
Proof.
  exact (sample_draws_100 Stub.RandomState Stub.normal stub_normal_size
           (Stub.seed_state 5000)).
Defined.


Lemma driver_cell_counts_true_outcomes_witness :
  (0 < 1000)%Z /\
  exists results s' empirical_FPR,
    let num_false_positives :=
      Z.of_nat (length (filter (fun outcome => outcome) results)) in
    trials (do_all_way_pairwise_tests Stub.normal Stub.ttest_ind 2 sig_05)
      (Z.to_nat 1000) (Stub.seed_state 5000) results s' /\
    Z.of_nat (length results) = 1000%Z /\
    int_truediv num_false_positives 1000 = Ok empirical_FPR /\
    driver_cell (do_all_way_pairwise_tests Stub.normal Stub.ttest_ind 2 sig_05)
      1000 (Stub.seed_state 5000)
    = Ok ((num_false_positives, empirical_FPR), s').
Proof.
  split; [lia|].
  apply (driver_cell_counts_true_outcomes Stub.RandomState
           (do_all_way_pairwise_tests Stub.normal Stub.ttest_ind 2 sig_05)
           1000 (Stub.seed_state 5000)).
  - intros s0.
    apply (do_all_way_pairwise_tests_total
             Stub.RandomState Stub.normal Stub.ttest_ind 2 sig_05 s0).
  - lia.
Defined.

(** ** Where the code departs from the specification *)

(** C3 (as stated) fails: with one group [do_all_way_pairwise_tests]
    raises nothing; it returns [False]. *)
Lemma one_group_pairwise_returns_false :
  do_all_way_pairwise_tests Stub.normal Stub.ttest_ind 1 sig_05
    (Stub.seed_state 5000)
  = Ok (false, snd (Stub.normal 100 (Stub.seed_state 5000))) /\
  ~ (exists e,
        do_all_way_pairwise_tests Stub.normal Stub.ttest_ind 1 sig_05
          (Stub.seed_state 5000) = Raise e).
Proof.
  split; [vm_compute; reflexivity|].
  intros [e He]. vm_compute in He. discriminate He.
Qed.

(** C6 (as stated) fails: the generator cannot be asked for a sample of
    50 observations; what it returns has 100. *)
Lemma sample_is_not_of_size_50 :
  0 < 50 /\
  exists g s',
    sample Stub.normal (Stub.seed_state 5000) = Ok (g, s') /\
    length g = 100 /\ length g <> 50.
Proof.
  split; [lia|].
  exists (fst (Stub.normal 100 (Stub.seed_state 5000))),
         (snd (Stub.normal 100 (Stub.seed_state 5000))).
  split; [vm_compute; reflexivity|].
  rewrite stub_normal_size. split; [reflexivity | lia].
Qed.

(** ** The further properties on a concrete run *)

Example seed_5000_accepted :
  np_random_seed Stub.seed_state 5000 77%Z = Ok (tt, Stub.seed_state 5000).
Proof. reflexivity. Qed.

Example seed_negative_refused :
  np_random_seed Stub.seed_state (-1) 77%Z = Raise ValueError.
Proof. reflexivity. Qed.

Example seed_too_large_refused :
  np_random_seed Stub.seed_state 4294967296 77%Z = Raise ValueError.
Proof. reflexivity. Qed.

Example seeded_pairwise_run :
  mbind _ (np_random_seed Stub.seed_state 5000)
    (fun _ => do_all_way_pairwise_tests Stub.normal Stub.ttest_ind 3 sig_05)
    77%Z
  = Ok (true, 1061796140%Z).
Proof. vm_compute. reflexivity. Qed.

Example bonferroni_threshold :
  float_truediv_int sig_05 3 = Ok 0x1.1111111111111p-6%float /\
  (0x1.1111111111111p-6 <=? sig_05)%float = true.
Proof. vm_compute. split; reflexivity. Qed.

Example float_truediv_int_zero :
  float_truediv_int sig_05 0 = Raise ZeroDivisionError.
Proof. reflexivity. Qed.

Lemma pairwise_positive_at_larger_threshold_witness :
  (sig_05 <=? 0.125)%float = true /\
  do_all_way_pairwise_tests Stub.normal Stub.ttest_ind 3 sig_05
    (Stub.seed_state 5000) = Ok (true, 1061796140%Z) /\
  do_all_way_pairwise_tests Stub.normal Stub.ttest_ind 3 0.125
    (Stub.seed_state 5000) = Ok (true, 1061796140%Z).
Proof.
  assert (Hle : (sig_05 <=? 0.125)%float = true) by reflexivity.
  assert (Hrun : do_all_way_pairwise_tests Stub.normal Stub.ttest_ind 3
                   sig_05 (Stub.seed_state 5000) = Ok (true, 1061796140%Z))
    by (vm_compute; reflexivity).
  split; [exact Hle|]. split; [exact Hrun|].
  exact (pairwise_positive_at_larger_threshold
           Stub.RandomState Stub.normal Stub.ttest_ind
           3 sig_05 0.125 (Stub.seed_state 5000) 1061796140%Z Hle Hrun).
Defined.

Lemma anova_positive_at_larger_threshold_witness :
  (sig_05 <=? 0.125)%float = true /\
  do_ANOVA Stub.normal Stub.f_oneway 3 sig_05 (Stub.seed_state 5000)
  = Ok (true, 1061796140%Z) /\
  do_ANOVA Stub.normal Stub.f_oneway 3 0.125 (Stub.seed_state 5000)
  = Ok (true, 1061796140%Z).
Proof.
  assert (Hle : (sig_05 <=? 0.125)%float = true) by reflexivity.
  assert (Hrun : do_ANOVA Stub.normal Stub.f_oneway 3 sig_05
                   (Stub.seed_state 5000) = Ok (true, 1061796140%Z))
    by (vm_compute; reflexivity).
  split; [exact Hle|]. split; [exact Hrun|].
  exact (anova_positive_at_larger_threshold
           Stub.RandomState Stub.normal Stub.f_oneway
           3 sig_05 0.125 (Stub.seed_state 5000) 1061796140%Z Hle Hrun).
Defined.

Lemma pairwise_positive_with_more_groups_witness :
  (3 <= 5)%Z /\
  do_all_way_pairwise_tests Stub.normal Stub.ttest_ind 3 sig_05
    (Stub.seed_state 5000) = Ok (true, 1061796140%Z) /\
  do_all_way_pairwise_tests Stub.normal Stub.ttest_ind 5 sig_05
    (Stub.seed_state 5000)
  = Ok (true, after_samples Stub.normal (Z.to_nat 5) (Stub.seed_state 5000)).
Proof.
  assert (Hrun : do_all_way_pairwise_tests Stub.normal Stub.ttest_ind 3
                   sig_05 (Stub.seed_state 5000) = Ok (true, 1061796140%Z))
    by (vm_compute; reflexivity).
  split; [lia|]. split; [exact Hrun|].
  apply (pairwise_positive_with_more_groups
           Stub.RandomState Stub.normal Stub.ttest_ind
           3 5 sig_05 (Stub.seed_state 5000) 1061796140%Z);
    [lia | exact Hrun].
Defined.

Lemma nan_threshold_reports_nothing_witness :
  is_nan nan = true /\
  do_all_way_pairwise_tests Stub.normal Stub.ttest_ind 3 nan
    (Stub.seed_state 5000)
  = Ok (false, after_samples Stub.normal (Z.to_nat 3) (Stub.seed_state 5000)) /\
  (forall r,
      Stub.f_oneway
        (successive_samples Stub.normal (Z.to_nat 3) (Stub.seed_state 5000))
      = Ok r ->
      do_ANOVA Stub.normal Stub.f_oneway 3 nan (Stub.seed_state 5000)
      = Ok (false,
            after_samples Stub.normal (Z.to_nat 3) (Stub.seed_state 5000))).
Proof.
  split; [reflexivity|].
  apply (nan_threshold_reports_nothing
           Stub.RandomState Stub.normal Stub.ttest_ind Stub.f_oneway
           3 nan (Stub.seed_state 5000)).
  reflexivity.
Defined.

Lemma driver_count_grows_with_threshold_witness :
  (0.125 <=? 0.25)%float = true /\
  driver_cell (do_all_way_pairwise_tests Stub.normal Stub.ttest_ind 3 0.125)
    20 (Stub.seed_state 5000) = Ok ((15%Z, 0.75%float), 1825661656%Z) /\
  exists c2 r2,
    driver_cell (do_all_way_pairwise_tests Stub.normal Stub.ttest_ind 3 0.25)
      20 (Stub.seed_state 5000) = Ok ((c2, r2), 1825661656%Z) /\
    (15 <= c2)%Z.
Proof.
  assert (Hle : (0.125 <=? 0.25)%float = true) by reflexivity.
  assert (Hrun : driver_cell
                   (do_all_way_pairwise_tests Stub.normal Stub.ttest_ind
                      3 0.125)
                   20 (Stub.seed_state 5000)
                 = Ok ((15%Z, 0.75%float), 1825661656%Z))
    by (vm_compute; reflexivity).
  split; [exact Hle|]. split; [exact Hrun|].
  exact (driver_count_grows_with_threshold
           Stub.RandomState Stub.normal Stub.ttest_ind
           3 20 0.125 0.25 (Stub.seed_state 5000) 1825661656%Z
           15%Z 0.75%float Hle Hrun).
Defined.

Lemma driver_cell_without_trials_witness :
  (-3 <= 0)%Z /\
  driver_cell (fun _ : Stub.RandomState => Raise ValueError) (-3)
    (Stub.seed_state 5000)
  = Ok ((0%Z, neg_zero), Stub.seed_state 5000).
Proof.
  split; [lia|].
  apply (driver_cell_without_trials Stub.RandomState
           (fun _ => Raise ValueError) (-3) (Stub.seed_state 5000)).
  lia.
Defined.

Lemma driver_cell_aborts_on_first_failure_witness :
  trials (do_ANOVA Stub.normal Stub.f_oneway 1 sig_05) 0
    (Stub.seed_state 5000) [] (Stub.seed_state 5000) /\
  do_ANOVA Stub.normal Stub.f_oneway 1 sig_05 (Stub.seed_state 5000)
  = Raise TypeError /\
  0 < Z.to_nat 1000 /\
  driver_cell (do_ANOVA Stub.normal Stub.f_oneway 1 sig_05) 1000
    (Stub.seed_state 5000) = Raise TypeError.
Proof.
  assert (Ht : trials (do_ANOVA Stub.normal Stub.f_oneway 1 sig_05) 0
                 (Stub.seed_state 5000) [] (Stub.seed_state 5000))
    by constructor.
  assert (He : do_ANOVA Stub.normal Stub.f_oneway 1 sig_05
                 (Stub.seed_state 5000) = Raise TypeError)
    by (vm_compute; reflexivity).
  assert (Hk : 0 < Z.to_nat 1000) by lia.
  split; [exact Ht|]. split; [exact He|]. split; [exact Hk|].
  exact (driver_cell_aborts_on_first_failure Stub.RandomState
           (do_ANOVA Stub.normal Stub.f_oneway 1 sig_05) 1000
           (Stub.seed_state 5000) (Stub.seed_state 5000) 0 [] TypeError
           Ht He Hk).
Defined.

Lemma driver_cell_consumes_trials_times_groups_witness :
  (0 < 1000)%Z /\
  exists c r,
    driver_cell (do_all_way_pairwise_tests Stub.normal Stub.ttest_ind 20 sig_05)
      1000 (Stub.seed_state 5000)
    = Ok ((c, r),
          after_samples Stub.normal (Z.to_nat 1000 * Z.to_nat 20)
            (Stub.seed_state 5000)) /\
    (0 <= c <= 1000)%Z.
Proof.
  split; [lia|].
  apply (driver_cell_consumes_trials_times_groups
           Stub.RandomState Stub.normal Stub.ttest_ind
           20 1000 sig_05 (Stub.seed_state 5000)).
  lia.
Defined.

Lemma notebook_runs_to_completion_witness :
  exists out,
    notebook Stub.seed_state Stub.normal Stub.ttest_ind Stub.f_oneway 7%Z
    = Ok (out, after_samples Stub.normal (Z.to_nat 31003)
                 (Stub.seed_state 5000)) /\
    Forall (fun printed => (0 <= fst printed <= 1000)%Z)
           [out_cell5 out; out_cell6 out; out_cell7 out;
            out_cell8 out; out_cell11 out].
Proof.
  exact (notebook_runs_to_completion
           Stub.RandomState Stub.seed_state Stub.normal Stub.ttest_ind
           Stub.f_oneway stub_f_oneway_defined 7%Z).
Defined.
